(** * The Pub/Sub subscriber client

    A shallow embedding of
    [pubsub/google/cloud/pubsub_v1/subscriber/client.py]: the class
    [Client] with its constructor, the [target] and [api] properties, and the
    two entry points [subscribe] and [subscribe_experimental].

    The client is glue: it builds a channel, a flow-control tuple, a policy
    or manager object, and calls [open] on it.  The objects it builds live in
    modules that are not part of this file ([types], [policy.thread],
    [_protocol.streaming_pull_manager], [futures]); what the development
    needs of them is modelled from the design document, and every such
    definition says so. *)

From Stdlib Require Import ZArith List Bool Lia.
From stdpp Require Import base option gmap strings list pretty.

Local Open Scope string_scope.
Local Open Scope Z_scope.

(** ** Python values

    The values the client inspects: it asks whether a callback is [None],
    whether it is callable, and formats it with [repr].  An object of any
    other class is described by exactly these observations. *)

Inductive pyval : Type :=
| PyNone
| PyInt (z : Z)
| PyObject (repr_ : string) (has_call : bool)
| PyInsecureChannel (target : option string)
| PyChannel (credentials : pyval) (target : string)
            (scopes : list string) (options : list (string * Z)).

(** [callable(v)] *)
Definition callable (v : pyval) : bool :=
  match v with
  | PyObject _ has_call => has_call
  | _ => false
  end.

(** [v is None] *)
Definition is_None (v : pyval) : bool :=
  match v with
  | PyNone => true
  | _ => false
  end.

(** [repr(v)], as ['{!r}'.format(v)] prints it. *)
Definition repr (v : pyval) : string :=
  match v with
  | PyNone => "None"
  | PyInt z => pretty z
  | PyObject r _ => r
  | PyInsecureChannel _ => "<grpc._channel.Channel object>"
  | PyChannel _ _ _ _ => "<grpc._channel.Channel object>"
  end.

(** Truth value of what [os.environ.get] returns: [None] and the empty
    string are false, any other string is true. *)
Definition truthy (v : option string) : bool :=
  match v with
  | Some s => negb (String.eqb s "")
  | None => false
  end.

(** ** Flow control *)

(** Modelled from the spec: [types.FlowControl] is declared in
    [google/cloud/pubsub_v1/types.py], which is missing here.  The design
    document gives the tuple two integer fields, the maximum number of
    outstanding messages (at least 1, default 1000) and the maximum number of
    outstanding bytes (at least 0, default 100MB, 0 for no limit). *)
Record FlowControl : Type := mkFlowControl {
  max_messages : Z;
  max_bytes : Z
}.

(** Modelled from the spec: the defaults of [types.FlowControl], missing
    with the rest of [types.py]: 1000 messages and 100MB. *)
Definition FlowControl_defaults : FlowControl :=
  {| max_messages := 1000; max_bytes := 100 * 1024 * 1024 |}.

(** The [flow_control] argument of the two entry points: the default [()]
    or a [FlowControl] tuple, as the docstrings type it. *)
Inductive flow_control_arg : Type :=
| fc_empty
| fc_tuple (fc : FlowControl).

(** [types.FlowControl] called on the unpacked [flow_control]: the empty
    tuple leaves every field to its default, a [FlowControl] tuple fills
    every field. *)
Definition FlowControl_new (flow_control : flow_control_arg) : FlowControl :=
  match flow_control with
  | fc_empty => FlowControl_defaults
  | fc_tuple fc => fc
  end.

(** The budget invariant of the design document. *)
Definition valid_budget (fc : FlowControl) : Prop :=
  1 <= max_messages fc /\ 0 <= max_bytes fc.

(** ** Flow-control limiter *)

(** Modelled from the spec: the FlowControlLimiter of section 4.1 of the
    design document, whose implementation is missing here.  It keeps the
    budget, the two outstanding totals and whether the manager is shutting
    down. *)
Record FlowControlLimiter : Type := mkLimiter {
  budget : FlowControl;
  outstanding_messages : Z;
  outstanding_bytes : Z;
  shutting_down : bool
}.

Definition FlowControlLimiter_new (fc : FlowControl) : FlowControlLimiter :=
  {| budget := fc; outstanding_messages := 0; outstanding_bytes := 0;
     shutting_down := false |}.

(** ** Stream supervisor and handle *)

(** Modelled from the spec: the stream states of section 3. *)
Inductive StreamState : Type :=
| Idle
| Connecting
| Active
| Draining
| Closed
| Failed.

(** Modelled from the spec: the stream-level conditions that sections 4.3
    and 7 of the design document name. *)
Inductive stream_error : Type :=
| transport_reset
| deadline_exceeded
| broker_unavailable
| auth_failure
| invalid_argument
| permission_denied
| not_found
| resource_exhausted
| broker_rejection.

(** The terminal result a handle wraps. *)
Inductive terminal : Type :=
| clean_stop
| terminal_error (e : stream_error).

(** Modelled from the spec: the supervisor with the handle it feeds.
    [result] is the terminal result the handle wraps, [None] while the
    operation runs; [attempts] counts the reconnections since the last
    handshake, the exponent of the backoff. *)
Record supervisor : Type := mkSupervisor {
  stream : StreamState;
  result : option terminal;
  attempts : nat
}.

Definition supervisor_new : supervisor :=
  {| stream := Idle; result := None; attempts := 0 |}.

(** ** Objects, the world and the effect monad *)

(** The two class attributes of [gapic.subscriber_client.SubscriberClient]
    that the client reads.  The generated module is not part of this file, so
    the development is parametric in them. *)
Record gapic_class : Type := mkGapic {
  SERVICE_ADDRESS : string;
  _DEFAULT_SCOPES : list string
}.

(** An instance of the generated client, kept by the keyword arguments it
    was built from. *)
Record SubscriberClient : Type := mkApi {
  api_kwargs : gmap string pyval
}.

(** The classes the client instantiates: the policy class it was given
    (by default [policy.thread.Policy]) and the streaming-pull manager. *)
Inductive class_ref : Type :=
| thread_Policy
| StreamingPullManager
| user_policy (name : string).

Record Client : Type := mkClient {
  _api : SubscriberClient;
  _policy_class : class_ref
}.

(** A policy or manager object on the heap.  [obj_callback] and
    [obj_limiter] are unset, and the stream [Idle], until [open]. *)
Record subscriber_object : Type := mkObject {
  obj_class : class_ref;
  obj_client : Client;
  obj_subscription : string;
  obj_flow_control : FlowControl;
  obj_callback : option pyval;
  obj_limiter : option FlowControlLimiter;
  obj_supervisor : supervisor
}.

(** [futures.StreamingPullFuture], kept by the manager it wraps. *)
Record StreamingPullFuture : Type := mkFuture {
  future_manager : nat
}.

(** Calls into the collaborators, in the order they are made. *)
Inductive call : Type :=
| call_insecure_channel (target : option string)
| call_create_channel (credentials : pyval) (target : string)
                      (scopes : list string) (options : list (string * Z))
| call_SubscriberClient (kwargs : gmap string pyval)
| call_construct (cls : class_ref) (ref : nat) (client : Client)
                 (subscription : string) (flow_control : FlowControl)
| call_StreamingPullFuture (manager : nat)
| call_open (ref : nat) (callback : pyval).

Record world : Type := mkWorld {
  environ : gmap string string;
  heap : list subscriber_object;
  calls : list call
}.

Inductive exn : Type :=
| TypeError (msg : string)
| NotInvocable (msg : string)
| AlreadyOpen
| ReferenceError.

Inductive outcome (A : Type) : Type :=
| Ret (a : A)
| Raise (e : exn).
Arguments Ret {A} a.
Arguments Raise {A} e.

(** Computations that read and change the world and may raise. *)
Definition M (A : Type) : Type := world -> outcome A * world.

#[global] Instance M_ret : MRet M := fun A a w => (Ret a, w).

#[global] Instance M_bind : MBind M := fun A B f m w =>
  match m w with
  | (Ret a, w') => f a w'
  | (Raise e, w') => (Raise e, w')
  end.

Definition raise {A : Type} (e : exn) : M A := fun w => (Raise e, w).

Definition log (c : call) : M unit := fun w =>
  (Ret tt, {| environ := environ w; heap := heap w; calls := calls w ++ [c] |}).

Definition set_heap (h : list subscriber_object) : M unit := fun w =>
  (Ret tt, {| environ := environ w; heap := h; calls := calls w |}).

Definition get_heap : M (list subscriber_object) := fun w => (Ret (heap w), w).

(** [os.environ.get(key)] *)
Definition os_environ_get (key : string) : M (option string) := fun w =>
  (Ret (environ w !! key), w).

(** [grpc.insecure_channel(target=target)] *)
Definition grpc_insecure_channel (target : option string) : M pyval :=
  log (call_insecure_channel target) ;;
  mret (PyInsecureChannel target).

(** [grpc_helpers.create_channel(credentials=, target=, scopes=, options=)] *)
Definition grpc_helpers_create_channel (credentials : pyval) (target : string)
    (scopes : list string) (options : list (string * Z)) : M pyval :=
  log (call_create_channel credentials target scopes options) ;;
  mret (PyChannel credentials target scopes options).

(** [subscriber_client.SubscriberClient] called with the keyword arguments
    [kwargs]. *)
Definition SubscriberClient_new (kwargs : gmap string pyval)
  : M SubscriberClient :=
  log (call_SubscriberClient kwargs) ;;
  mret {| api_kwargs := kwargs |}.

(** Instantiating a policy class or the manager with
    [(client, subscription, flow_control)]: a new object on the heap, not yet
    open.  The reference returned is its index. *)
Definition construct (cls : class_ref) (client : Client)
    (subscription : string) (flow_control : FlowControl) : M nat :=
  h ← get_heap ;
  let ref := length h in
  log (call_construct cls ref client subscription flow_control) ;;
  set_heap (h ++ [ {| obj_class := cls; obj_client := client;
                      obj_subscription := subscription;
                      obj_flow_control := flow_control;
                      obj_callback := None; obj_limiter := None;
                      obj_supervisor := supervisor_new |} ]) ;;
  mret ref.

(** [futures.StreamingPullFuture(manager)] *)
Definition StreamingPullFuture_new (manager : nat) : M StreamingPullFuture :=
  log (call_StreamingPullFuture manager) ;;
  mret {| future_manager := manager |}.

(** The message of the error for a callback that cannot be invoked. *)
Definition not_invocable_message (callback : pyval) : string :=
  repr callback ++ " is not invocable".

(** Modelled from the spec: [open(callback)] of section 4.5, whose
    implementations ([policy/thread.py], [_protocol/streaming_pull_manager.py])
    are missing here.  It validates that the callback is invocable, refuses a
    second opening, and otherwise constructs the components and starts the
    stream supervisor, which goes from [Idle] to [Connecting]. *)
Definition open (ref : nat) (callback : pyval) : M unit :=
  log (call_open ref callback) ;;
  h ← get_heap ;
  match h !! ref with
  | None => raise ReferenceError
  | Some o =>
      if negb (callable callback) then
        raise (NotInvocable (not_invocable_message callback))
      else
        match stream (obj_supervisor o) with
        | Idle =>
            set_heap (<[ref :=
              {| obj_class := obj_class o; obj_client := obj_client o;
                 obj_subscription := obj_subscription o;
                 obj_flow_control := obj_flow_control o;
                 obj_callback := Some callback;
                 obj_limiter :=
                   Some (FlowControlLimiter_new (obj_flow_control o));
                 obj_supervisor :=
                   {| stream := Connecting; result := None; attempts := 0 |}
              |}]> h)
        | _ => raise AlreadyOpen
        end
  end.

(** ** The class [Client] *)

Section ClientMethods.

Variable gapic : gapic_class.

(** The options of the channel the client creates, in the order the
    dictionary literal lists them. *)
Definition channel_options : list (string * Z) :=
  [ ("grpc.max_send_message_length", -1);
    ("grpc.max_receive_message_length", -1);
    ("grpc.keepalive_time_ms", 30000) ].

(** The [target] property.  It reads no attribute of the instance. *)
Definition target (self : Client) : string := SERVICE_ADDRESS gapic.

(** The [api] property. *)
Definition api (self : Client) : SubscriberClient := _api self.

(** [Client.__init__(self, policy_class, **kwargs)].  [self.target] is read
    while the instance has no attribute yet; as the property reads none, its
    value there is the class constant. *)
Definition __init__ (policy_class : class_ref) (kwargs : gmap string pyval)
  : M Client :=
  emulator ← os_environ_get "PUBSUB_EMULATOR_HOST" ;
  kwargs ← (if truthy emulator then
              host ← os_environ_get "PUBSUB_EMULATOR_HOST" ;
              channel ← grpc_insecure_channel host ;
              mret (<["channel" := channel]> kwargs)
            else mret kwargs) ;
  kwargs ← (match kwargs !! "channel" with
            | Some _ => mret kwargs
            | None =>
                let credentials := default PyNone (kwargs !! "credentials") in
                let kwargs := delete "credentials" kwargs in
                channel ← grpc_helpers_create_channel credentials
                            (SERVICE_ADDRESS gapic) (_DEFAULT_SCOPES gapic)
                            channel_options ;
                mret (<["channel" := channel]> kwargs)
            end) ;
  _api ← SubscriberClient_new kwargs ;
  mret {| _api := _api; _policy_class := policy_class |}.

(** The message of the [TypeError] of [subscribe]. *)
Definition not_callable_message (callback : pyval) : string :=
  repr callback ++ " is not callable, please check input".

(** [Client.subscribe(self, subscription, callback=None, flow_control=())] *)
Definition subscribe (self : Client) (subscription : string)
    (callback : pyval) (flow_control : flow_control_arg) : M nat :=
  let flow_control := FlowControl_new flow_control in
  subscr ← construct (_policy_class self) self subscription flow_control ;
  (if callable callback then open subscr callback
   else if negb (is_None callback) then
     raise (TypeError (not_callable_message callback))
   else mret tt) ;;
  mret subscr.

(** [Client.subscribe_experimental(self, subscription, callback,
    flow_control=(), scheduler_=None)].  The body never reads
    [scheduler_]. *)
Definition subscribe_experimental (self : Client) (subscription : string)
    (callback : pyval) (flow_control : flow_control_arg) (scheduler_ : pyval)
  : M StreamingPullFuture :=
  let flow_control := FlowControl_new flow_control in
  manager ← construct StreamingPullManager self subscription flow_control ;
  future ← StreamingPullFuture_new manager ;
  open manager callback ;;
  mret future.

End ClientMethods.

(** ** The entry point over any [open] *)

(** What an [open] method does with a callback to the object it is called
    on: the object as it leaves it, or the exception it raises.  The method
    belongs to the manager, whose module is not part of this file. *)
Definition open_behaviour : Type :=
  pyval -> subscriber_object -> outcome subscriber_object.

(** Calling an [open] method of behaviour [b] on the object at [ref]. *)
Definition open_with (b : open_behaviour) (ref : nat) (callback : pyval)
  : M unit :=
  log (call_open ref callback) ;;
  h ← get_heap ;
  match h !! ref with
  | None => raise ReferenceError
  | Some o =>
      match b callback o with
      | Ret o' => set_heap (<[ref := o']> h)
      | Raise e => raise e
      end
  end.

(** The behaviour of [open] above, the one of the design document. *)
Definition documented_open : open_behaviour := fun callback o =>
  if negb (callable callback) then
    Raise (NotInvocable (not_invocable_message callback))
  else
    match stream (obj_supervisor o) with
    | Idle =>
        Ret {| obj_class := obj_class o; obj_client := obj_client o;
               obj_subscription := obj_subscription o;
               obj_flow_control := obj_flow_control o;
               obj_callback := Some callback;
               obj_limiter :=
                 Some (FlowControlLimiter_new (obj_flow_control o));
               obj_supervisor :=
                 {| stream := Connecting; result := None; attempts := 0 |} |}
    | _ => Raise AlreadyOpen
    end.

(** [Client.subscribe_experimental], line for line, with the [open] method
    of the manager a parameter [b]. *)
Definition subscribe_experimental_with (b : open_behaviour) (self : Client)
    (subscription : string) (callback : pyval)
    (flow_control : flow_control_arg) (scheduler_ : pyval)
  : M StreamingPullFuture :=
  let flow_control := FlowControl_new flow_control in
  manager ← construct StreamingPullManager self subscription flow_control ;
  future ← StreamingPullFuture_new manager ;
  open_with b manager callback ;;
  mret future.

(** An [open] that takes any callback: it stores it and starts the stream
    without validating anything. *)
Definition unchecked_open : open_behaviour := fun callback o =>
  Ret {| obj_class := obj_class o; obj_client := obj_client o;
         obj_subscription := obj_subscription o;
         obj_flow_control := obj_flow_control o;
         obj_callback := Some callback;
         obj_limiter := obj_limiter o;
         obj_supervisor :=
           {| stream := Connecting; result := None; attempts := 0 |} |}.

(** ** Reading a world *)

(** The calls made since the world [w], in a later world [w']. *)
Definition calls_since (w w' : world) : list call :=
  drop (length (calls w)) (calls w').

Definition is_open_call (c : call) : bool :=
  match c with
  | call_open _ _ => true
  | _ => false
  end.


Definition is_create_channel (c : call) : bool :=
  match c with
  | call_create_channel _ _ _ _ => true
  | _ => false
  end.

Definition count (p : call -> bool) (cs : list call) : nat :=
  length (filter (fun c => p c = true) cs).

(** The channel an instance of the generated client talks through. *)
Definition channel_of (c : Client) : option pyval :=
  api_kwargs (_api c) !! "channel".

(** The stream state of the object at [ref], if there is one. *)
Definition stream_of (w : world) (ref : nat) : option StreamState :=
  (fun o => stream (obj_supervisor o)) <$> heap w !! ref.

(** A world in which nothing has happened yet, with the environment [env]. *)
Definition fresh_world (env : gmap string string) : world :=
  {| environ := env; heap := []; calls := [] |}.

(** An instance of the class attributes, to run the constructor on. *)
Definition sample_gapic : gapic_class :=
  {| SERVICE_ADDRESS := "pubsub.googleapis.com:443";
     _DEFAULT_SCOPES := ["https://www.googleapis.com/auth/pubsub"] |}.

(** The environment variable that names the emulator. *)
Definition emulator_variable : string := "PUBSUB_EMULATOR_HOST".

(** A client, a callback and a subscription name to run the entry points
    on. *)
Definition sample_client : Client :=
  {| _api := {| api_kwargs := ∅ |}; _policy_class := thread_Policy |}.

Definition sample_callback : pyval := PyObject "<function callback>" true.

Definition sample_subscription : string := "projects/p/subscriptions/s".

(** A budget of one message and one megabyte. *)
Definition small_budget : FlowControl :=
  {| max_messages := 1; max_bytes := 1024 * 1024 |}.

(** Further readings of the call log. *)
Definition is_insecure_channel (c : call) : bool :=
  match c with
  | call_insecure_channel _ => true
  | _ => false
  end.

Definition is_SubscriberClient_call (c : call) : bool :=
  match c with
  | call_SubscriberClient _ => true
  | _ => false
  end.

(** The calls [subscribe] and [subscribe_experimental] may make. *)
Definition is_subscription_call (c : call) : bool :=
  match c with
  | call_construct _ _ _ _ _ | call_StreamingPullFuture _ | call_open _ _ =>
      true
  | _ => false
  end.

(** The world [w] with the variable [key] removed from its environment. *)
Definition unset (key : string) (w : world) : world :=
  {| environ := delete key (environ w); heap := heap w; calls := calls w |}.

(** Keyword arguments with credentials and one more entry. *)
Definition sample_kwargs : gmap string pyval :=
  <["credentials" := PyObject "<Credentials>" false]>
    (<["client_info" := PyObject "<ClientInfo>" false]> ∅).

(** * Properties *)

Local Open Scope list_scope.

(** ** Shared facts about the collaborators *)

(** The world after [construct] in [w]. *)
Definition constructed (cls : class_ref) (client : Client)
    (subscription : string) (fc : FlowControl) (w : world) : world :=
  {| environ := environ w;
     heap := heap w ++ [ {| obj_class := cls; obj_client := client;
                            obj_subscription := subscription;
                            obj_flow_control := fc;
                            obj_callback := None; obj_limiter := None;
                            obj_supervisor := supervisor_new |} ];
     calls := calls w ++
              [call_construct cls (length (heap w)) client subscription fc] |}.

Lemma construct_eq cls client subscription fc w :
  construct cls client subscription fc w
  = (Ret (length (heap w)), constructed cls client subscription fc w).
Proof. reflexivity. Qed.

Lemma constructed_lookup cls client subscription fc w :
  heap (constructed cls client subscription fc w) !! length (heap w)
  = Some {| obj_class := cls; obj_client := client;
            obj_subscription := subscription; obj_flow_control := fc;
            obj_callback := None; obj_limiter := None;
            obj_supervisor := supervisor_new |}.
Proof. simpl. apply list_lookup_middle. reflexivity. Qed.

Lemma calls_since_app w w' cs :
  calls w' = calls w ++ cs -> calls_since w w' = cs.
Proof.
  intros E. unfold calls_since. rewrite E. apply drop_app_length.
Qed.

(** [open] turns a non-callable callback away and leaves the heap alone. *)
Lemma open_not_callable ref callback w o :
  heap w !! ref = Some o ->
  callable callback = false ->
  open ref callback w
  = (Raise (NotInvocable (not_invocable_message callback)),
     {| environ := environ w; heap := heap w;
        calls := calls w ++ [call_open ref callback] |}).
Proof.
  intros Hl Hc. unfold open, log, get_heap, mbind, M_bind. simpl.
  rewrite Hl, Hc. reflexivity.
Qed.

(** [open] on an idle object with a callable callback starts the stream. *)
Lemma open_idle ref callback w o :
  heap w !! ref = Some o ->
  callable callback = true ->
  stream (obj_supervisor o) = Idle ->
  open ref callback w
  = (Ret tt,
     {| environ := environ w;
        heap := <[ref :=
          {| obj_class := obj_class o; obj_client := obj_client o;
             obj_subscription := obj_subscription o;
             obj_flow_control := obj_flow_control o;
             obj_callback := Some callback;
             obj_limiter := Some (FlowControlLimiter_new (obj_flow_control o));
             obj_supervisor :=
               {| stream := Connecting; result := None; attempts := 0 |} |}]>
          (heap w);
        calls := calls w ++ [call_open ref callback] |}).
Proof.
  intros Hl Hc Hs. unfold open, log, get_heap, mbind, M_bind. simpl.
  rewrite Hl, Hc, Hs. reflexivity.
Qed.

(** ** [subscribe] *)

(** The three ways through [subscribe]. *)
Lemma subscribe_callable self subscription callback fc w :
  callable callback = true ->
  exists w',
    subscribe self subscription callback fc w = (Ret (length (heap w)), w')
    /\ calls w' = calls w ++
         [call_construct (_policy_class self) (length (heap w)) self
            subscription (FlowControl_new fc);
          call_open (length (heap w)) callback]
    /\ stream_of w' (length (heap w)) = Some Connecting.
Proof.
  intros Hc. unfold subscribe, mbind, M_bind.
  rewrite construct_eq, Hc.
  erewrite open_idle; [| apply constructed_lookup | exact Hc | reflexivity].
  eexists. split; [reflexivity |]. split.
  - simpl. rewrite <- app_assoc. reflexivity.
  - unfold stream_of. simpl.
    rewrite list_lookup_insert_eq; [reflexivity |].
    rewrite length_app. simpl. lia.
Qed.

Lemma subscribe_None self subscription fc w :
  subscribe self subscription PyNone fc w
  = (Ret (length (heap w)),
     constructed (_policy_class self) self subscription (FlowControl_new fc) w).
Proof. reflexivity. Qed.

Lemma subscribe_not_callable self subscription callback fc w :
  callable callback = false ->
  is_None callback = false ->
  subscribe self subscription callback fc w
  = (Raise (TypeError (not_callable_message callback)),
     constructed (_policy_class self) self subscription (FlowControl_new fc) w).
Proof.
  intros Hc Hn. unfold subscribe, mbind, M_bind.
  rewrite construct_eq, Hc, Hn. reflexivity.
Qed.

Lemma is_None_true v : is_None v = true -> v = PyNone.
Proof. destruct v; simpl; congruence. Qed.


(** C1.  For every client, subscription name and flow-control setting,
    [subscribe] raises a [TypeError] exactly when the callback is neither
    [None] nor callable.  Whenever it raises, the error is that [TypeError],
    it carries the message built from the [repr] of the callback, it is the
    outcome of the call itself, and [open] has not been called: the policy
    object that was constructed is still idle. *)
Theorem subscribe_TypeError_iff (self : Client) (subscription : string)
    (callback : pyval) (fc : flow_control_arg) (w : world) :
  ((exists msg w',
       subscribe self subscription callback fc w = (Raise (TypeError msg), w'))
   <-> (is_None callback = false /\ callable callback = false))
  /\ (forall e w',
         subscribe self subscription callback fc w = (Raise e, w') ->
         e = TypeError (not_callable_message callback)
         /\ count is_open_call (calls_since w w') = 0%nat
         /\ stream_of w' (length (heap w)) = Some Idle).
Proof.
  destruct (callable callback) eqn:Hc.
  - destruct (subscribe_callable self subscription callback fc w Hc)
      as (w1 & E & _ & _).
    split.
    + split.
      * intros (msg & w' & E'). rewrite E in E'. discriminate.
      * intros [_ ?]. discriminate.
    + intros e w' E'. rewrite E in E'. discriminate.
  - destruct (is_None callback) eqn:Hn.
    + apply is_None_true in Hn. subst callback. rewrite subscribe_None.
      split.
      * split.
        -- intros (msg & w' & E'). discriminate.
        -- intros [? _]. discriminate.
      * intros e w' E'. discriminate.
    + rewrite (subscribe_not_callable _ _ _ _ _ Hc Hn). split.
      * split; [auto |]. intros _. eauto.
      * intros e w' E'. injection E' as <- <-.
        split; [reflexivity |]. split.
        -- erewrite calls_since_app; [| reflexivity]. reflexivity.
        -- unfold stream_of. rewrite constructed_lookup. reflexivity.
Qed.

(** C8.  With the callback [None], [subscribe] does not raise: it returns
    the policy object it constructed from the client, the subscription name
    and the flow-control tuple, and the only call it made is that
    construction, so [open] was not called and the object is idle.  The
    object can be opened afterwards: [open] with a callable callback then
    succeeds and starts the stream. *)
Theorem subscribe_None_unopened (self : Client) (subscription : string)
    (fc : flow_control_arg) (w : world) :
  exists w',
    subscribe self subscription PyNone fc w = (Ret (length (heap w)), w')
    /\ calls_since w w'
       = [call_construct (_policy_class self) (length (heap w)) self
            subscription (FlowControl_new fc)]
    /\ count is_open_call (calls_since w w') = 0%nat
    /\ heap w' !! length (heap w)
       = Some {| obj_class := _policy_class self; obj_client := self;
                 obj_subscription := subscription;
                 obj_flow_control := FlowControl_new fc;
                 obj_callback := None; obj_limiter := None;
                 obj_supervisor := supervisor_new |}
    /\ forall callback, callable callback = true ->
       exists w'',
         open (length (heap w)) callback w' = (Ret tt, w'')
         /\ stream_of w'' (length (heap w)) = Some Connecting.
Proof.
  rewrite subscribe_None. eexists. split; [reflexivity |].
  assert (Hs : calls_since w
            (constructed (_policy_class self) self subscription
               (FlowControl_new fc) w)
          = [call_construct (_policy_class self) (length (heap w)) self
               subscription (FlowControl_new fc)])
    by (apply calls_since_app; reflexivity).
  rewrite Hs. split; [reflexivity |]. split; [reflexivity |].
  split; [apply constructed_lookup |].
  intros callback Hc.
  erewrite open_idle; [| apply constructed_lookup | exact Hc | reflexivity].
  eexists. split; [reflexivity |].
  unfold stream_of. simpl.
  rewrite list_lookup_insert_eq; [reflexivity |].
  rewrite length_app. simpl. lia.
Qed.

(** ** [subscribe_experimental] *)

Lemma subscribe_experimental_callable self subscription callback fc sched w :
  callable callback = true ->
  exists w',
    subscribe_experimental self subscription callback fc sched w
    = (Ret {| future_manager := length (heap w) |}, w')
    /\ calls w' = calls w ++
         [call_construct StreamingPullManager (length (heap w)) self
            subscription (FlowControl_new fc);
          call_StreamingPullFuture (length (heap w));
          call_open (length (heap w)) callback]
    /\ heap w' !! length (heap w)
       = Some {| obj_class := StreamingPullManager; obj_client := self;
                 obj_subscription := subscription;
                 obj_flow_control := FlowControl_new fc;
                 obj_callback := Some callback;
                 obj_limiter :=
                   Some (FlowControlLimiter_new (FlowControl_new fc));
                 obj_supervisor :=
                   {| stream := Connecting; result := None; attempts := 0 |}
              |}.
Proof.
  intros Hc. unfold subscribe_experimental, mbind, M_bind.
  rewrite construct_eq.
  unfold StreamingPullFuture_new, log, mbind, M_bind, mret, M_ret.
  erewrite open_idle; [| apply constructed_lookup | exact Hc | reflexivity].
  eexists. split; [reflexivity |]. split.
  - simpl. rewrite <- !app_assoc. reflexivity.
  - simpl. rewrite list_lookup_insert_eq; [reflexivity |].
    rewrite length_app. simpl. lia.
Qed.

Lemma subscribe_experimental_not_callable self subscription callback fc
    sched w :
  callable callback = false ->
  subscribe_experimental self subscription callback fc sched w
  = (Raise (NotInvocable (not_invocable_message callback)),
     {| environ := environ w;
        heap := heap (constructed StreamingPullManager self subscription
                        (FlowControl_new fc) w);
        calls := calls w ++
          [call_construct StreamingPullManager (length (heap w)) self
             subscription (FlowControl_new fc);
           call_StreamingPullFuture (length (heap w));
           call_open (length (heap w)) callback] |}).
Proof.
  intros Hc. unfold subscribe_experimental, mbind, M_bind.
  rewrite construct_eq.
  unfold StreamingPullFuture_new, log, mbind, M_bind, mret, M_ret.
  erewrite open_not_callable; [| apply constructed_lookup | exact Hc].
  simpl. rewrite <- !app_assoc. reflexivity.
Qed.

(** C2.  For every callback value, [subscribe_experimental] raises exactly
    when the callback is not callable.  The error is the one [open] raises on
    validating the callback, it carries a message built from the [repr] of
    the callback, and it is the outcome of the call itself.  The manager is
    then not open: it holds no callback, none of its components has been
    constructed, and its stream is still idle. *)
Theorem subscribe_experimental_rejects_non_callable (self : Client)
    (subscription : string) (callback : pyval) (fc : flow_control_arg)
    (sched : pyval) (w : world) :
  ((exists e w',
       subscribe_experimental self subscription callback fc sched w
       = (Raise e, w'))
   <-> callable callback = false)
  /\ (forall e w',
         subscribe_experimental self subscription callback fc sched w
         = (Raise e, w') ->
         e = NotInvocable (not_invocable_message callback)
         /\ heap w' !! length (heap w)
            = Some {| obj_class := StreamingPullManager; obj_client := self;
                      obj_subscription := subscription;
                      obj_flow_control := FlowControl_new fc;
                      obj_callback := None; obj_limiter := None;
                      obj_supervisor := supervisor_new |}
         /\ stream_of w' (length (heap w)) = Some Idle).
Proof.
  destruct (callable callback) eqn:Hc.
  - destruct (subscribe_experimental_callable self subscription callback fc
                sched w Hc) as (w1 & E & _ & _).
    split.
    + split; [| discriminate].
      intros (e & w' & E'). rewrite E in E'. discriminate.
    + intros e w' E'. rewrite E in E'. discriminate.
  - rewrite (subscribe_experimental_not_callable _ _ _ _ _ _ Hc). split.
    + split; [auto |]. intros _. eauto.
    + intros e w' E'. injection E' as <- <-. split; [reflexivity |].
      assert (Hl := constructed_lookup StreamingPullManager self subscription
                      (FlowControl_new fc) w).
      split; [exact Hl |].
      unfold stream_of. simpl in *. rewrite Hl. reflexivity.
Qed.

(** [open] is [open_with] at the documented behaviour, and so is the entry
    point. *)
Lemma open_with_documented ref callback w :
  open_with documented_open ref callback w = open ref callback w.
Proof.
  unfold open_with, open, documented_open, log, get_heap, mbind, M_bind.
  simpl. destruct (heap w !! ref) as [o |]; [| reflexivity].
  destruct (callable callback); simpl; [| reflexivity].
  destruct (stream (obj_supervisor o)); reflexivity.
Qed.

Lemma subscribe_experimental_with_documented self subscription callback fc
    sched w :
  subscribe_experimental_with documented_open self subscription callback fc
    sched w
  = subscribe_experimental self subscription callback fc sched w.
Proof.
  unfold subscribe_experimental_with, subscribe_experimental, mbind, M_bind.
  destruct (construct StreamingPullManager self subscription
              (FlowControl_new fc) w) as [[manager | e] w1]; [| reflexivity].
  destruct (StreamingPullFuture_new manager w1) as [[future | e] w2];
    [| reflexivity].
  rewrite open_with_documented. reflexivity.
Qed.


(** With an [open] that validates nothing, the callback [5] gets its
    future. *)
Example subscribe_experimental_unchecked_open :
  fst (subscribe_experimental_with unchecked_open sample_client
         sample_subscription (PyInt 5) fc_empty PyNone (fresh_world ∅))
  = Ret {| future_manager := 0 |}.
Proof. reflexivity. Qed.

(** ** The default flow control *)

(** Whatever the callback, [subscribe] first constructs the policy object
    with the tuple [FlowControl_new] built. *)
Lemma subscribe_constructs self subscription callback fc w :
  exists r w' rest,
    subscribe self subscription callback fc w = (r, w')
    /\ calls_since w w'
       = call_construct (_policy_class self) (length (heap w)) self
           subscription (FlowControl_new fc) :: rest
    /\ obj_flow_control <$> heap w' !! length (heap w)
       = Some (FlowControl_new fc).
Proof.
  destruct (callable callback) eqn:Hc.
  - unfold subscribe, mbind, M_bind. rewrite construct_eq, Hc.
    erewrite open_idle; [| apply constructed_lookup | exact Hc | reflexivity].
    eexists _, _, _. split; [reflexivity |]. split.
    + apply calls_since_app. simpl. rewrite <- app_assoc. reflexivity.
    + simpl. rewrite list_lookup_insert_eq; [reflexivity |].
      rewrite length_app. simpl. lia.
  - assert (Hl := constructed_lookup (_policy_class self) self subscription
                    (FlowControl_new fc) w).
    destruct (is_None callback) eqn:Hn.
    + apply is_None_true in Hn. subst callback. rewrite subscribe_None.
      eexists _, _, _. split; [reflexivity |]. split.
      * apply calls_since_app. reflexivity.
      * rewrite Hl. reflexivity.
    + rewrite (subscribe_not_callable _ _ _ _ _ Hc Hn).
      eexists _, _, _. split; [reflexivity |]. split.
      * apply calls_since_app. reflexivity.
      * rewrite Hl. reflexivity.
Qed.

Lemma subscribe_experimental_constructs self subscription callback fc sched w :
  exists r w' rest,
    subscribe_experimental self subscription callback fc sched w = (r, w')
    /\ calls_since w w'
       = call_construct StreamingPullManager (length (heap w)) self
           subscription (FlowControl_new fc) :: rest
    /\ obj_flow_control <$> heap w' !! length (heap w)
       = Some (FlowControl_new fc).
Proof.
  destruct (callable callback) eqn:Hc.
  - destruct (subscribe_experimental_callable self subscription callback fc
                sched w Hc) as (w1 & E & Hcalls & Hheap).
    eexists _, _, _. split; [exact E |]. split.
    + apply calls_since_app. exact Hcalls.
    + rewrite Hheap. reflexivity.
  - rewrite (subscribe_experimental_not_callable _ _ _ _ _ _ Hc).
    eexists _, _, _. split; [reflexivity |]. split.
    + apply calls_since_app. reflexivity.
    + assert (Hl := constructed_lookup StreamingPullManager self subscription
                      (FlowControl_new fc) w).
      simpl in *. rewrite Hl. reflexivity.
Qed.

(** C4.  With the [flow_control] argument left to its default, the empty
    tuple, [subscribe] and [subscribe_experimental] both construct their
    object with the default flow-control tuple, and that tuple is a valid
    budget: its maximum of outstanding messages is an integer at least 1, its
    maximum of outstanding bytes an integer at least 0. *)
Theorem default_flow_control_is_valid_budget (self : Client)
    (subscription : string) (callback sched : pyval) (w : world) :
  (exists r w' rest,
      subscribe self subscription callback fc_empty w = (r, w')
      /\ calls_since w w'
         = call_construct (_policy_class self) (length (heap w)) self
             subscription FlowControl_defaults :: rest
      /\ obj_flow_control <$> heap w' !! length (heap w)
         = Some FlowControl_defaults)
  /\ (exists r w' rest,
         subscribe_experimental self subscription callback fc_empty sched w
         = (r, w')
         /\ calls_since w w'
            = call_construct StreamingPullManager (length (heap w)) self
                subscription FlowControl_defaults :: rest
         /\ obj_flow_control <$> heap w' !! length (heap w)
            = Some FlowControl_defaults)
  /\ 1 <= max_messages FlowControl_defaults
  /\ 0 <= max_bytes FlowControl_defaults.
Proof.
  split; [| split].
  - exact (subscribe_constructs self subscription callback fc_empty w).
  - exact (subscribe_experimental_constructs self subscription callback
             fc_empty sched w).
  - simpl. lia.
Qed.

(** ** The constructor and [target] *)

Ltac run_monad :=
  unfold os_environ_get, grpc_insecure_channel, grpc_helpers_create_channel,
    SubscriberClient_new, log, mbind, M_bind, mret, M_ret; simpl.

Lemma truthy_Some h : truthy (Some h) = true <-> h <> "".
Proof.
  simpl. destruct (String.eqb_spec h ""); simpl; split; congruence.
Qed.

(** With a non-empty emulator host the constructor makes the insecure
    channel and nothing else before it instantiates the generated client. *)
Lemma init_emulator gapic policy_class (kwargs : gmap string pyval) w h :
  environ w !! emulator_variable = Some h ->
  h <> "" ->
  __init__ gapic policy_class kwargs w
  = (Ret {| _api :=
              {| api_kwargs :=
                   <["channel" := PyInsecureChannel (Some h)]> kwargs |};
            _policy_class := policy_class |},
     {| environ := environ w; heap := heap w;
        calls := calls w ++
          [call_insecure_channel (Some h);
           call_SubscriberClient
             (<["channel" := PyInsecureChannel (Some h)]> kwargs)] |}).
Proof.
  intros He Hh. apply truthy_Some in Hh.
  unfold emulator_variable in He.
  unfold __init__. run_monad. rewrite He, Hh. simpl.
  rewrite lookup_insert_eq. simpl. rewrite ?He, <- app_assoc. reflexivity.
Qed.

(** Without one, a channel of the caller is kept as it is. *)
Lemma init_caller_channel gapic policy_class (kwargs : gmap string pyval) w ch :
  truthy (environ w !! emulator_variable) = false ->
  kwargs !! "channel" = Some ch ->
  __init__ gapic policy_class kwargs w
  = (Ret {| _api := {| api_kwargs := kwargs |};
            _policy_class := policy_class |},
     {| environ := environ w; heap := heap w;
        calls := calls w ++ [call_SubscriberClient kwargs] |}).
Proof.
  intros He Hk. unfold emulator_variable in He.
  unfold __init__. run_monad. rewrite He. simpl. rewrite Hk. reflexivity.
Qed.

(** Without one and without a channel of the caller, the channel is created
    from the credentials, for the service address. *)
Lemma init_created_channel gapic policy_class (kwargs : gmap string pyval) w :
  truthy (environ w !! emulator_variable) = false ->
  kwargs !! "channel" = None ->
  let channel :=
    PyChannel (default PyNone (kwargs !! "credentials"))
      (SERVICE_ADDRESS gapic) (_DEFAULT_SCOPES gapic) channel_options in
  let kwargs' := <["channel" := channel]> (delete "credentials" kwargs) in
  __init__ gapic policy_class kwargs w
  = (Ret {| _api := {| api_kwargs := kwargs' |};
            _policy_class := policy_class |},
     {| environ := environ w; heap := heap w;
        calls := calls w ++
          [call_create_channel (default PyNone (kwargs !! "credentials"))
             (SERVICE_ADDRESS gapic) (_DEFAULT_SCOPES gapic) channel_options;
           call_SubscriberClient kwargs'] |}).
Proof.
  intros He Hk. unfold emulator_variable in He.
  unfold __init__. run_monad. rewrite He. simpl. rewrite Hk. simpl.
  rewrite <- app_assoc. reflexivity.
Qed.

(** The constructor always returns a client. *)
Lemma init_returns gapic policy_class (kwargs : gmap string pyval) w :
  exists c w', __init__ gapic policy_class kwargs w = (Ret c, w').
Proof.
  destruct (truthy (environ w !! emulator_variable)) eqn:He.
  - destruct (environ w !! emulator_variable) as [h |] eqn:Hl;
      [| discriminate].
    apply truthy_Some in He.
    rewrite (init_emulator _ _ _ _ _ Hl He). eauto.
  - destruct (kwargs !! "channel") as [ch |] eqn:Hk.
    + rewrite (init_caller_channel _ _ _ _ _ He Hk). eauto.
    + rewrite (init_created_channel _ _ _ _ He Hk). eauto.
Qed.

(** C9, as amended.  If [PUBSUB_EMULATOR_HOST] is set to a non-empty string
    when the client is constructed, the client talks through an insecure
    channel whose target is that string, whatever the keyword arguments, and
    the channel creation from credentials is not called. *)
Theorem emulator_host_gives_insecure_channel (gapic : gapic_class)
    (policy_class : class_ref) (kwargs : gmap string pyval) (w : world)
    (h : string) :
  environ w !! emulator_variable = Some h ->
  h <> "" ->
  exists c w',
    __init__ gapic policy_class kwargs w = (Ret c, w')
    /\ channel_of c = Some (PyInsecureChannel (Some h))
    /\ calls_since w w'
       = [call_insecure_channel (Some h);
          call_SubscriberClient
            (<["channel" := PyInsecureChannel (Some h)]> kwargs)]
    /\ count is_create_channel (calls_since w w') = 0%nat.
Proof.
  intros He Hh. rewrite (init_emulator _ _ _ _ _ He Hh).
  eexists _, _. split; [reflexivity |]. split.
  - unfold channel_of. simpl. apply lookup_insert_eq.
  - erewrite calls_since_app; [| reflexivity]. split; reflexivity.
Qed.

Lemma emulator_host_gives_insecure_channel_witness :
  environ (fresh_world {[emulator_variable := "localhost:8085"]})
    !! emulator_variable = Some "localhost:8085"
  /\ "localhost:8085" <> ""
  /\ exists c w',
    __init__ sample_gapic thread_Policy ∅
      (fresh_world {[emulator_variable := "localhost:8085"]}) = (Ret c, w')
    /\ channel_of c = Some (PyInsecureChannel (Some "localhost:8085"))
    /\ calls_since
         (fresh_world {[emulator_variable := "localhost:8085"]}) w'
       = [call_insecure_channel (Some "localhost:8085");
          call_SubscriberClient
            (<["channel" := PyInsecureChannel (Some "localhost:8085")]> ∅)]
    /\ count is_create_channel
         (calls_since
            (fresh_world {[emulator_variable := "localhost:8085"]}) w')
       = 0%nat.
Proof.
  split; [reflexivity |]. split; [discriminate |].
  apply (emulator_host_gives_insecure_channel sample_gapic thread_Policy ∅
           (fresh_world {[emulator_variable := "localhost:8085"]})
           "localhost:8085").
  - reflexivity.
  - discriminate.
Defined.

(** C9, as stated, fails: with [PUBSUB_EMULATOR_HOST] set to the empty
    string the channel is created from the credentials, for the service
    address, and no insecure channel is made. *)
Lemma empty_emulator_host_gives_created_channel :
  environ (fresh_world {[emulator_variable := ""]}) !! emulator_variable
  = Some ""
  /\ exists c w',
       __init__ sample_gapic thread_Policy ∅
         (fresh_world {[emulator_variable := ""]}) = (Ret c, w')
       /\ channel_of c
          = Some (PyChannel PyNone "pubsub.googleapis.com:443"
                    ["https://www.googleapis.com/auth/pubsub"]
                    channel_options)
       /\ count is_create_channel (calls w') = 1%nat.
Proof.
  split; [reflexivity |].
  rewrite init_created_channel; [| reflexivity | reflexivity].
  eexists _, _. split; [reflexivity |]. split; reflexivity.
Qed.

(** C10.  Whatever the environment, the policy class and the keyword
    arguments, the client the constructor returns has the service address of
    the generated client as its [target].  That is so when the emulator host
    is set, where the channel of the client targets that host, and when the
    caller supplied a channel, which the client keeps: [target] does not tell
    where the client connects. *)
Theorem target_is_service_address (gapic : gapic_class)
    (policy_class : class_ref) (kwargs : gmap string pyval) (w : world) :
  exists c w',
    __init__ gapic policy_class kwargs w = (Ret c, w')
    /\ target gapic c = SERVICE_ADDRESS gapic
    /\ (forall h, environ w !! emulator_variable = Some h -> h <> "" ->
        channel_of c = Some (PyInsecureChannel (Some h)))
    /\ (forall ch, truthy (environ w !! emulator_variable) = false ->
        kwargs !! "channel" = Some ch ->
        channel_of c = Some ch).
Proof.
  destruct (init_returns gapic policy_class kwargs w) as (c & w' & E).
  exists c, w'. split; [exact E |]. split; [reflexivity |]. split.
  - intros h He Hh. rewrite (init_emulator _ _ _ _ _ He Hh) in E.
    injection E as <- _. unfold channel_of. simpl. apply lookup_insert_eq.
  - intros ch He Hk. rewrite (init_caller_channel _ _ _ _ _ He Hk) in E.
    injection E as <- _. exact Hk.
Qed.

(** * Further properties of the client *)

(** ** The constructor *)

(** The three ways through the constructor, at once: the keyword arguments
    [kwargs'] the generated client is instantiated with, and the channel
    call made [before] that. *)
Lemma init_cases gapic policy_class (kwargs : gmap string pyval) w :
  exists (kwargs' : gmap string pyval) (before : list call),
    __init__ gapic policy_class kwargs w
    = (Ret {| _api := {| api_kwargs := kwargs' |};
              _policy_class := policy_class |},
       {| environ := environ w; heap := heap w;
          calls := calls w ++ before ++ [call_SubscriberClient kwargs'] |})
    /\ ((exists h,
            environ w !! emulator_variable = Some h /\ h <> ""
            /\ kwargs' = <["channel" := PyInsecureChannel (Some h)]> kwargs
            /\ before = [call_insecure_channel (Some h)])
        \/ (truthy (environ w !! emulator_variable) = false
            /\ exists ch,
                 kwargs !! "channel" = Some ch
                 /\ kwargs' = kwargs /\ before = [])
        \/ (truthy (environ w !! emulator_variable) = false
            /\ kwargs !! "channel" = None
            /\ kwargs'
               = <["channel" :=
                     PyChannel (default PyNone (kwargs !! "credentials"))
                       (SERVICE_ADDRESS gapic) (_DEFAULT_SCOPES gapic)
                       channel_options]> (delete "credentials" kwargs)
            /\ before
               = [call_create_channel
                    (default PyNone (kwargs !! "credentials"))
                    (SERVICE_ADDRESS gapic) (_DEFAULT_SCOPES gapic)
                    channel_options])).
Proof.
  destruct (truthy (environ w !! emulator_variable)) eqn:Ht.
  - destruct (environ w !! emulator_variable) as [h |] eqn:He;
      [| discriminate].
    apply truthy_Some in Ht.
    rewrite (init_emulator _ _ _ _ _ He Ht).
    exists (<["channel" := PyInsecureChannel (Some h)]> kwargs),
      [call_insecure_channel (Some h)].
    split; [reflexivity |]. left. exists h. auto.
  - destruct (kwargs !! "channel") as [ch |] eqn:Hk.
    + rewrite (init_caller_channel _ _ _ _ _ Ht Hk).
      exists kwargs, []. split; [reflexivity |]. right. left. eauto.
    + rewrite (init_created_channel _ _ _ _ Ht Hk).
      exists (<["channel" :=
                 PyChannel (default PyNone (kwargs !! "credentials"))
                   (SERVICE_ADDRESS gapic) (_DEFAULT_SCOPES gapic)
                   channel_options]> (delete "credentials" kwargs)),
        [call_create_channel (default PyNone (kwargs !! "credentials"))
           (SERVICE_ADDRESS gapic) (_DEFAULT_SCOPES gapic) channel_options].
      split; [reflexivity |]. right. right. auto.
Qed.

(** X1.  Whatever the environment and the keyword arguments, the
    constructor instantiates the generated client once, as its last call and
    with exactly the keyword arguments the [api] property then shows, after
    at most one call that makes a channel.  It stores the policy class it was
    given, creates no subscription object and leaves the environment as it
    was. *)
Theorem init_instantiates_api_last (gapic : gapic_class)
    (policy_class : class_ref) (kwargs : gmap string pyval) (w : world) :
  exists c w' before,
    __init__ gapic policy_class kwargs w = (Ret c, w')
    /\ calls w' = calls w ++ before
                  ++ [call_SubscriberClient (api_kwargs (api c))]
    /\ (length before <= 1)%nat
    /\ count is_SubscriberClient_call before = 0%nat
    /\ _policy_class c = policy_class
    /\ heap w' = heap w
    /\ environ w' = environ w.
Proof.
  destruct (init_cases gapic policy_class kwargs w)
    as (kwargs' & before & E & Hcase).
  eexists _, _, before. split; [exact E |]. simpl.
  split; [reflexivity |].
  destruct Hcase as [(h & _ & _ & _ & ->) | [(_ & ch & _ & _ & ->)
                                            | (_ & _ & _ & ->)]];
    simpl; repeat split; lia.
Qed.

(** X2.  The channel of the constructed client, by precedence: the insecure
    channel to the emulator host when that variable is set and not empty,
    else the channel of the caller when there is one, else a channel created
    from the credentials of the caller ([None] without any) for the address
    [target] shows, with the default scopes and the three options. *)
Theorem init_channel_precedence (gapic : gapic_class)
    (policy_class : class_ref) (kwargs : gmap string pyval) (w : world) :
  exists c w',
    __init__ gapic policy_class kwargs w = (Ret c, w')
    /\ channel_of c
       = Some
           (if truthy (environ w !! emulator_variable)
            then PyInsecureChannel (environ w !! emulator_variable)
            else match kwargs !! "channel" with
                 | Some ch => ch
                 | None =>
                     PyChannel (default PyNone (kwargs !! "credentials"))
                       (target gapic c) (_DEFAULT_SCOPES gapic)
                       [("grpc.max_send_message_length", -1);
                        ("grpc.max_receive_message_length", -1);
                        ("grpc.keepalive_time_ms", 30000)]
                 end).
Proof.
  destruct (init_cases gapic policy_class kwargs w)
    as (kwargs' & before & E & Hcase).
  eexists _, _. split; [exact E |]. unfold channel_of. simpl.
  destruct Hcase as [(h & He & Hh & -> & _) | [(Ht & ch & Hk & -> & _)
                                              | (Ht & Hk & -> & _)]].
  - rewrite He. apply truthy_Some in Hh. rewrite Hh.
    apply lookup_insert_eq.
  - rewrite Ht, Hk. reflexivity.
  - rewrite Ht, Hk. apply lookup_insert_eq.
Qed.

(** X3.  The credentials among the keyword arguments reach the generated
    client exactly when the constructor does not create the channel itself:
    with the emulator host set and not empty, or with a channel of the
    caller, they are passed on as they are; otherwise they are taken out and
    the generated client gets none. *)
Theorem init_credentials_forwarding (gapic : gapic_class)
    (policy_class : class_ref) (kwargs : gmap string pyval) (w : world) :
  exists c w',
    __init__ gapic policy_class kwargs w = (Ret c, w')
    /\ api_kwargs (api c) !! "credentials"
       = (if truthy (environ w !! emulator_variable)
          then kwargs !! "credentials"
          else match kwargs !! "channel" with
               | Some _ => kwargs !! "credentials"
               | None => None
               end).
Proof.
  destruct (init_cases gapic policy_class kwargs w)
    as (kwargs' & before & E & Hcase).
  eexists _, _. split; [exact E |]. simpl.
  destruct Hcase as [(h & He & Hh & -> & _) | [(Ht & ch & Hk & -> & _)
                                              | (Ht & Hk & -> & _)]].
  - rewrite He. apply truthy_Some in Hh. rewrite Hh.
    rewrite lookup_insert_ne; [reflexivity | discriminate].
  - rewrite Ht, Hk. reflexivity.
  - rewrite Ht, Hk. rewrite lookup_insert_ne; [| discriminate].
    apply lookup_delete_eq.
Qed.

(** X4.  Every keyword argument other than [channel] and [credentials]
    reaches the generated client unchanged, and none is added. *)
Theorem init_forwards_other_kwargs (gapic : gapic_class)
    (policy_class : class_ref) (kwargs : gmap string pyval) (w : world)
    (key : string) :
  key <> "channel" ->
  key <> "credentials" ->
  exists c w',
    __init__ gapic policy_class kwargs w = (Ret c, w')
    /\ api_kwargs (api c) !! key = kwargs !! key.
Proof.
  intros Hc Hcr.
  destruct (init_cases gapic policy_class kwargs w)
    as (kwargs' & before & E & Hcase).
  eexists _, _. split; [exact E |]. simpl.
  destruct Hcase as [(h & _ & _ & -> & _) | [(_ & ch & _ & -> & _)
                                            | (_ & _ & -> & _)]].
  - rewrite lookup_insert_ne; [reflexivity | congruence].
  - reflexivity.
  - rewrite lookup_insert_ne; [| congruence].
    apply lookup_delete_ne. congruence.
Qed.

Lemma init_forwards_other_kwargs_witness :
  "client_info" <> "channel"
  /\ "client_info" <> "credentials"
  /\ exists c w',
       __init__ sample_gapic thread_Policy sample_kwargs (fresh_world ∅)
       = (Ret c, w')
       /\ api_kwargs (api c) !! "client_info"
          = sample_kwargs !! "client_info".
Proof.
  split; [discriminate |]. split; [discriminate |].
  apply (init_forwards_other_kwargs sample_gapic thread_Policy sample_kwargs
           (fresh_world ∅) "client_info"); discriminate.
Defined.

(** X5.  The constructor makes the insecure channel exactly when the
    emulator host is set and not empty, creates a channel from credentials
    exactly when it is not and the caller gave no channel, and never does
    both: with a channel of the caller and no emulator host no channel is
    made at all. *)
Theorem init_channel_calls (gapic : gapic_class)
    (policy_class : class_ref) (kwargs : gmap string pyval) (w : world) :
  exists c w',
    __init__ gapic policy_class kwargs w = (Ret c, w')
    /\ count is_insecure_channel (calls_since w w')
       = (if truthy (environ w !! emulator_variable) then 1 else 0)%nat
    /\ count is_create_channel (calls_since w w')
       = (if truthy (environ w !! emulator_variable) then 0
          else match kwargs !! "channel" with
               | Some _ => 0
               | None => 1
               end)%nat
    /\ count is_SubscriberClient_call (calls_since w w') = 1%nat.
Proof.
  destruct (init_cases gapic policy_class kwargs w)
    as (kwargs' & before & E & Hcase).
  eexists _, _. split; [exact E |].
  erewrite calls_since_app; [| reflexivity].
  destruct Hcase as [(h & He & Hh & _ & ->) | [(Ht & ch & Hk & _ & ->)
                                              | (Ht & Hk & _ & ->)]].
  - rewrite He. apply truthy_Some in Hh. rewrite Hh.
    repeat split; reflexivity.
  - rewrite Ht, Hk. repeat split; reflexivity.
  - rewrite Ht, Hk. repeat split; reflexivity.
Qed.

(** X6.  An emulator host set to the empty string counts as not set: the
    constructor returns the same client and makes the same calls as with the
    variable removed from the environment. *)
Theorem init_empty_host_as_unset (gapic : gapic_class)
    (policy_class : class_ref) (kwargs : gmap string pyval) (w : world) :
  environ w !! emulator_variable = Some "" ->
  fst (__init__ gapic policy_class kwargs w)
  = fst (__init__ gapic policy_class kwargs (unset emulator_variable w))
  /\ calls (snd (__init__ gapic policy_class kwargs w))
     = calls (snd (__init__ gapic policy_class kwargs
                     (unset emulator_variable w))).
Proof.
  intros He.
  assert (Ht : truthy (environ w !! emulator_variable) = false)
    by (rewrite He; reflexivity).
  assert (Hu : truthy (environ (unset emulator_variable w)
                       !! emulator_variable) = false).
  { unfold unset. simpl. rewrite lookup_delete_eq. reflexivity. }
  destruct (kwargs !! "channel") as [ch |] eqn:Hk.
  - rewrite (init_caller_channel _ _ _ _ _ Ht Hk),
      (init_caller_channel _ _ _ _ _ Hu Hk).
    split; reflexivity.
  - rewrite (init_created_channel _ _ _ _ Ht Hk),
      (init_created_channel _ _ _ _ Hu Hk).
    split; reflexivity.
Qed.

Lemma init_empty_host_as_unset_witness :
  environ (fresh_world {[emulator_variable := ""]}) !! emulator_variable
  = Some ""
  /\ fst (__init__ sample_gapic thread_Policy sample_kwargs
            (fresh_world {[emulator_variable := ""]}))
     = fst (__init__ sample_gapic thread_Policy sample_kwargs
              (unset emulator_variable
                 (fresh_world {[emulator_variable := ""]})))
  /\ calls (snd (__init__ sample_gapic thread_Policy sample_kwargs
                   (fresh_world {[emulator_variable := ""]})))
     = calls (snd (__init__ sample_gapic thread_Policy sample_kwargs
                     (unset emulator_variable
                        (fresh_world {[emulator_variable := ""]})))).
Proof.
  split; [reflexivity |].
  apply (init_empty_host_as_unset sample_gapic thread_Policy sample_kwargs
           (fresh_world {[emulator_variable := ""]})).
  reflexivity.
Defined.

(** ** The two entry points *)

(** Whatever the callback, [subscribe] adds one object to the heap, the one
    at the reference it returns when it returns, and its calls are a
    construction followed by at most an [open]. *)
Lemma subscribe_heap self subscription callback fc w :
  exists r w' o cs,
    subscribe self subscription callback fc w = (r, w')
    /\ heap w' = heap w ++ [o]
    /\ obj_class o = _policy_class self
    /\ obj_client o = self
    /\ obj_subscription o = subscription
    /\ obj_flow_control o = FlowControl_new fc
    /\ environ w' = environ w
    /\ calls w' = calls w ++ cs
    /\ forallb is_subscription_call cs = true
    /\ (forall ref, r = Ret ref -> ref = length (heap w)).
Proof.
  destruct (callable callback) eqn:Hc.
  - unfold subscribe, mbind, M_bind. rewrite construct_eq, Hc.
    erewrite open_idle; [| apply constructed_lookup | exact Hc | reflexivity].
    eexists _, _, _, _. split; [reflexivity |]. simpl.
    split.
    { rewrite insert_app_r_alt by lia. rewrite Nat.sub_diag. reflexivity. }
    repeat split.
    + rewrite <- app_assoc. reflexivity.
    + reflexivity.
    + intros ref [= <-]. reflexivity.
  - destruct (is_None callback) eqn:Hn.
    + apply is_None_true in Hn. subst callback. rewrite subscribe_None.
      eexists _, _, _, _. split; [reflexivity |]. simpl.
      repeat split. intros ref [= <-]. reflexivity.
    + rewrite (subscribe_not_callable _ _ _ _ _ Hc Hn).
      eexists _, _, _, _. split; [reflexivity |]. simpl.
      repeat split. intros ref [=].
Qed.

Lemma subscribe_experimental_heap self subscription callback fc sched w :
  exists r w' o cs,
    subscribe_experimental self subscription callback fc sched w = (r, w')
    /\ heap w' = heap w ++ [o]
    /\ obj_class o = StreamingPullManager
    /\ obj_client o = self
    /\ obj_subscription o = subscription
    /\ obj_flow_control o = FlowControl_new fc
    /\ environ w' = environ w
    /\ calls w' = calls w ++ cs
    /\ forallb is_subscription_call cs = true
    /\ (forall fut, r = Ret fut -> future_manager fut = length (heap w)).
Proof.
  destruct (callable callback) eqn:Hc.
  - unfold subscribe_experimental, mbind, M_bind. rewrite construct_eq.
    unfold StreamingPullFuture_new, log, mbind, M_bind, mret, M_ret.
    erewrite open_idle; [| apply constructed_lookup | exact Hc | reflexivity].
    eexists _, _, _, _. split; [reflexivity |]. simpl.
    split.
    { rewrite insert_app_r_alt by lia. rewrite Nat.sub_diag. reflexivity. }
    repeat split.
    + rewrite <- !app_assoc. reflexivity.
    + reflexivity.
    + intros fut [= <-]. reflexivity.
  - rewrite (subscribe_experimental_not_callable _ _ _ _ _ _ Hc).
    eexists _, _, _, _. split; [reflexivity |]. simpl.
    repeat split. intros fut [=].
Qed.

(** X7.  Whatever the callback, and also when it raises, [subscribe]
    instantiates the policy class of the client once: the heap gains one
    object, of that class and bound to this client, this subscription name
    and the flow-control tuple, every object that was there is untouched, the
    environment is unchanged, and no channel or generated client is made. *)
Theorem subscribe_adds_one_object (self : Client) (subscription : string)
    (callback : pyval) (fc : flow_control_arg) (w : world) :
  exists r w' o,
    subscribe self subscription callback fc w = (r, w')
    /\ length (heap w') = S (length (heap w))
    /\ (forall ref, (ref < length (heap w))%nat ->
        heap w' !! ref = heap w !! ref)
    /\ heap w' !! length (heap w) = Some o
    /\ obj_class o = _policy_class self
    /\ obj_client o = self
    /\ obj_subscription o = subscription
    /\ obj_flow_control o = FlowControl_new fc
    /\ environ w' = environ w
    /\ forallb is_subscription_call (calls_since w w') = true.
Proof.
  destruct (subscribe_heap self subscription callback fc w)
    as (r & w' & o & cs & E & Hh & H1 & H2 & H3 & H4 & He & Hc & Hf & _).
  exists r, w', o. split; [exact E |]. rewrite Hh.
  split; [rewrite length_app; simpl; lia |].
  split; [intros ref Hlt; apply lookup_app_l; exact Hlt |].
  split; [apply list_lookup_middle; reflexivity |].
  rewrite (calls_since_app _ _ _ Hc). auto 10.
Qed.

(** X8.  Whatever the callback and whatever the policy class of the client,
    [subscribe_experimental] instantiates the streaming-pull manager once:
    the heap gains one object, of that class and bound to this client, this
    subscription name and the flow-control tuple, every object that was there
    is untouched, the environment is unchanged, and no channel or generated
    client is made. *)
Theorem subscribe_experimental_adds_one_manager (self : Client)
    (subscription : string) (callback : pyval) (fc : flow_control_arg)
    (sched : pyval) (w : world) :
  exists r w' o,
    subscribe_experimental self subscription callback fc sched w = (r, w')
    /\ length (heap w') = S (length (heap w))
    /\ (forall ref, (ref < length (heap w))%nat ->
        heap w' !! ref = heap w !! ref)
    /\ heap w' !! length (heap w) = Some o
    /\ obj_class o = StreamingPullManager
    /\ obj_client o = self
    /\ obj_subscription o = subscription
    /\ obj_flow_control o = FlowControl_new fc
    /\ environ w' = environ w
    /\ forallb is_subscription_call (calls_since w w') = true.
Proof.
  destruct (subscribe_experimental_heap self subscription callback fc sched w)
    as (r & w' & o & cs & E & Hh & H1 & H2 & H3 & H4 & He & Hc & Hf & _).
  exists r, w', o. split; [exact E |]. rewrite Hh.
  split; [rewrite length_app; simpl; lia |].
  split; [intros ref Hlt; apply lookup_app_l; exact Hlt |].
  split; [apply list_lookup_middle; reflexivity |].
  rewrite (calls_since_app _ _ _ Hc). auto 10.
Qed.

(** X9.  Two calls of [subscribe] one after the other, on any clients and
    with any arguments, return different objects when both return: the second
    reference is the one after the first, and the object the first call
    returned is the same after the second call as before it. *)
Theorem subscribe_twice_distinct_objects (self1 self2 : Client)
    (subscription1 subscription2 : string) (callback1 callback2 : pyval)
    (fc1 fc2 : flow_control_arg) (w w1 w2 : world) (ref1 ref2 : nat) :
  subscribe self1 subscription1 callback1 fc1 w = (Ret ref1, w1) ->
  subscribe self2 subscription2 callback2 fc2 w1 = (Ret ref2, w2) ->
  ref2 = S ref1
  /\ is_Some (heap w1 !! ref1)
  /\ heap w2 !! ref1 = heap w1 !! ref1
  /\ is_Some (heap w2 !! ref2).
Proof.
  intros E1 E2.
  destruct (subscribe_heap self1 subscription1 callback1 fc1 w)
    as (r & w1' & o1 & cs1 & E1' & Hh1 & _ & _ & _ & _ & _ & _ & _ & Hr1).
  rewrite E1 in E1'. injection E1' as <- <-.
  destruct (subscribe_heap self2 subscription2 callback2 fc2 w1)
    as (r & w2' & o2 & cs2 & E2' & Hh2 & _ & _ & _ & _ & _ & _ & _ & Hr2).
  rewrite E2 in E2'. injection E2' as <- <-.
  rewrite (Hr1 ref1 eq_refl), (Hr2 ref2 eq_refl).
  rewrite Hh2, Hh1. rewrite !length_app. simpl.
  split; [lia |].
  assert (H1 : (heap w ++ [o1]) !! length (heap w) = Some o1)
    by (apply list_lookup_middle; reflexivity).
  split; [rewrite H1; eauto |].
  split.
  - apply lookup_app_l. rewrite length_app. simpl. lia.
  - replace (length (heap w) + 1)%nat with (length (heap w ++ [o1]))
      by (rewrite length_app; reflexivity).
    rewrite list_lookup_middle by reflexivity. eauto.
Qed.

Lemma subscribe_twice_distinct_objects_witness :
  subscribe sample_client sample_subscription sample_callback fc_empty
    (fresh_world ∅)
  = (Ret 0%nat,
     snd (subscribe sample_client sample_subscription sample_callback
            fc_empty (fresh_world ∅)))
  /\ subscribe sample_client sample_subscription PyNone
       (fc_tuple small_budget)
       (snd (subscribe sample_client sample_subscription sample_callback
               fc_empty (fresh_world ∅)))
     = (Ret 1%nat,
        snd (subscribe sample_client sample_subscription PyNone
               (fc_tuple small_budget)
               (snd (subscribe sample_client sample_subscription
                       sample_callback fc_empty (fresh_world ∅)))))
  /\ 1%nat = S 0
  /\ is_Some
       (heap (snd (subscribe sample_client sample_subscription
                     sample_callback fc_empty (fresh_world ∅))) !! 0%nat).
Proof.
  assert (H1 : subscribe sample_client sample_subscription sample_callback
                 fc_empty (fresh_world ∅)
               = (Ret 0%nat,
                  snd (subscribe sample_client sample_subscription
                         sample_callback fc_empty (fresh_world ∅))))
    by reflexivity.
  assert (H2 : subscribe sample_client sample_subscription PyNone
                 (fc_tuple small_budget)
                 (snd (subscribe sample_client sample_subscription
                         sample_callback fc_empty (fresh_world ∅)))
               = (Ret 1%nat,
                  snd (subscribe sample_client sample_subscription PyNone
                         (fc_tuple small_budget)
                         (snd (subscribe sample_client sample_subscription
                                 sample_callback fc_empty
                                 (fresh_world ∅))))))
    by reflexivity.
  split; [exact H1 |]. split; [exact H2 |].
  destruct (subscribe_twice_distinct_objects _ _ _ _ _ _ _ _ _ _ _ _ _ H1 H2)
    as (Hr & Hs & _ & _).
  split; [exact Hr | exact Hs].
Defined.

(** X10.  On a client the constructor returned, [subscribe] instantiates the
    policy class the constructor was given, and [subscribe_experimental] the
    streaming-pull manager whatever that class is; both bind the object to
    that client, and the object is the first on a heap the constructor left
    as it was. *)
Theorem constructed_client_instantiates_policy_class (gapic : gapic_class)
    (policy_class : class_ref) (kwargs : gmap string pyval) (w : world)
    (subscription : string) (callback sched : pyval)
    (fc : flow_control_arg) :
  exists c w1,
    __init__ gapic policy_class kwargs w = (Ret c, w1)
    /\ (exists r w2 rest,
           subscribe c subscription callback fc w1 = (r, w2)
           /\ calls_since w1 w2
              = call_construct policy_class (length (heap w)) c subscription
                  (FlowControl_new fc) :: rest)
    /\ (exists r w2 rest,
           subscribe_experimental c subscription callback fc sched w1
           = (r, w2)
           /\ calls_since w1 w2
              = call_construct StreamingPullManager (length (heap w)) c
                  subscription (FlowControl_new fc) :: rest).
Proof.
  destruct (init_cases gapic policy_class kwargs w)
    as (kwargs' & before & E & _).
  eexists _, _. split; [exact E |]. split.
  - destruct (subscribe_constructs
                {| _api := {| api_kwargs := kwargs' |};
                   _policy_class := policy_class |}
                subscription callback fc
                {| environ := environ w; heap := heap w;
                   calls := calls w ++ before
                            ++ [call_SubscriberClient kwargs'] |})
      as (r & w2 & rest & E2 & Hc & _).
    exists r, w2, rest. split; [exact E2 | exact Hc].
  - destruct (subscribe_experimental_constructs
                {| _api := {| api_kwargs := kwargs' |};
                   _policy_class := policy_class |}
                subscription callback fc sched
                {| environ := environ w; heap := heap w;
                   calls := calls w ++ before
                            ++ [call_SubscriberClient kwargs'] |})
      as (r & w2 & rest & E2 & Hc & _).
    exists r, w2, rest. split; [exact E2 | exact Hc].
Qed.

(** X11.  With a callable callback [subscribe] makes two calls and no
    other: it instantiates the policy class of the client, then calls [open]
    once, with that callback, on the object it has just made; as [open]
    accepts a callable callback on a new object, that object is what
    [subscribe] returns. *)
Theorem subscribe_callable_opens_returned_object (self : Client)
    (subscription : string) (callback : pyval) (fc : flow_control_arg)
    (w : world) :
  callable callback = true ->
  exists ref w',
    subscribe self subscription callback fc w = (Ret ref, w')
    /\ calls_since w w'
       = [call_construct (_policy_class self) ref self subscription
            (FlowControl_new fc);
          call_open ref callback]
    /\ count is_open_call (calls_since w w') = 1%nat.
Proof.
  intros Hc.
  destruct (subscribe_callable self subscription callback fc w Hc)
    as (w' & E & Hcalls & _).
  exists (length (heap w)), w'. split; [exact E |].
  rewrite (calls_since_app _ _ _ Hcalls). split; reflexivity.
Qed.

Lemma subscribe_callable_opens_returned_object_witness :
  callable sample_callback = true
  /\ exists ref w',
       subscribe sample_client sample_subscription sample_callback fc_empty
         (fresh_world ∅) = (Ret ref, w')
       /\ calls_since (fresh_world ∅) w'
          = [call_construct thread_Policy ref sample_client
               sample_subscription FlowControl_defaults;
             call_open ref sample_callback]
       /\ count is_open_call (calls_since (fresh_world ∅) w') = 1%nat.
Proof.
  split; [reflexivity |].
  apply (subscribe_callable_opens_returned_object sample_client
           sample_subscription sample_callback fc_empty (fresh_world ∅)).
  reflexivity.
Defined.
